(** * Extension tools of chrome-devtools-mcp: a shallow embedding

    The development follows [src/tools/extensions.ts].  The file exists in
    two revisions: the first one (lines 1-117) declares five tools without
    any feature condition; the second one (lines 118-253) gates four of them
    on [EXTENSIONS_CONDITION] and moves [open_extension_sidepanel] to the
    DEBUGGING category with a handler that catches its own failures.

    Handlers are JavaScript [async] functions that mutate the response
    object they are given and call the execution context.  They are embedded
    as computations of a state-and-exception monad [M]: the state holds the
    response builder and the log of calls made on the context, the exception
    is the thrown JavaScript value.  An [await] on a context call is a
    sequencing point; a rejected promise is a throw. *)

From stdpp Require Import base option list strings gmap pretty.

Local Open Scope string_scope.
Local Open Scope list_scope.

(** ** JavaScript values that can be thrown *)

(** The second [open_extension_sidepanel] handler distinguishes
    [error instanceof Error] (it reads [error.message]) from any other
    thrown value (it renders [String(error)]). *)
Inductive Thrown : Type :=
  | ErrorObject (message : string)
  | OtherValue (rendered : string).

Definition Thrown_eq_dec : EqDecision Thrown.
Proof. solve_decision. Defined.
#[export] Existing Instance Thrown_eq_dec.

Inductive Completion (A : Type) : Type :=
  | Normal (a : A)
  | Throw (e : Thrown).
Arguments Normal {A} a.
Arguments Throw {A} e.

(** ** The execution context (external) *)

Module Extension.
(** The record [context.getExtension] hands back; the handlers read
    [path] only. *)
Record t : Type := Build {
  id : string;
  name : string;
  version : string;
  path : string;
}.
End Extension.

Module SidepanelResult.
Record t : Type := Build {
  url : string;
  note : string;
  windowId : Z;
}.
End SidepanelResult.

(** One entry per method call a handler makes on the context, in call
    order: the side-effect counter of the test scenarios. *)
Inductive ContextCall : Type :=
  | CallInstallExtension (path : string)
  | CallUninstallExtension (id : string)
  | CallGetExtension (id : string)
  | CallOpenExtensionSidepanel (id : string).

Definition ContextCall_eq_dec : EqDecision ContextCall.
Proof. solve_decision. Defined.
#[export] Existing Instance ContextCall_eq_dec.

Module Context.
(** The context is owned outside this file, so it is a record of
    arbitrary behaviours.  Each method sees the calls made so far, which
    lets a context answer differently over time (an extension exists
    after it was installed, say).  [getExtension] is synchronous and
    yields a record or [undefined]. *)
Record t : Type := Build {
  installExtension : list ContextCall → string → Completion string;
  uninstallExtension : list ContextCall → string → Completion unit;
  getExtension : list ContextCall → string → option Extension.t;
  openExtensionSidepanel :
    list ContextCall → string → Completion SidepanelResult.t;
}.
End Context.

(** ** The response builder *)

(** Modelled from the spec: the response object handed to a handler (its
    class is not part of [extensions.ts]).  Section 4.4: an ordered,
    append-only sequence of text lines and two rendering flags, last write
    winning. *)
Record ResponseBuilder : Type := mkResponseBuilder {
  textLines : list string;
  listExtensionsFlag : bool;
  includePagesFlag : bool;
}.

Definition freshBuilder : ResponseBuilder :=
  {| textLines := []; listExtensionsFlag := false; includePagesFlag := false |}.

(** ** The handler monad *)

Record World : Type := mkWorld {
  calls : list ContextCall;
  response : ResponseBuilder;
}.

Definition M (A : Type) : Type := World → Completion A * World.

#[export] Instance M_ret : MRet M := λ A a w, (Normal a, w).

#[export] Instance M_bind : MBind M := λ A B f m w,
  match m w with
  | (Normal a, w') => f a w'
  | (Throw e, w') => (Throw e, w')
  end.

(** [throw new Error(...)] and friends. *)
Definition throw {A : Type} (e : Thrown) : M A := λ w, (Throw e, w).

(** [try { body } catch (error) { handler }]: the effects of [body] up to
    the throw stay. *)
Definition try_catch {A : Type} (body : M A) (handler : Thrown → M A) : M A :=
  λ w,
    match body w with
    | (Normal a, w') => (Normal a, w')
    | (Throw e, w') => handler e w'
    end.

(** A call on the context: it is logged, then its result is returned or
    its failure thrown. *)
Definition contextCall {A : Type} (c : ContextCall)
    (behaviour : list ContextCall → Completion A) : M A :=
  λ w, (behaviour (calls w),
        {| calls := calls w ++ [c]; response := response w |}).

Module Call.
(** [context.installExtension(path)] and the other three methods, as
    computations of [M]. *)
Definition installExtension (context : Context.t) (path : string)
    : M string :=
  contextCall (CallInstallExtension path)
    (λ h, Context.installExtension context h path).

Definition uninstallExtension (context : Context.t) (id : string)
    : M unit :=
  contextCall (CallUninstallExtension id)
    (λ h, Context.uninstallExtension context h id).

Definition getExtension (context : Context.t) (id : string)
    : M (option Extension.t) :=
  contextCall (CallGetExtension id)
    (λ h, Normal (Context.getExtension context h id)).

Definition openExtensionSidepanel (context : Context.t) (id : string)
    : M SidepanelResult.t :=
  contextCall (CallOpenExtensionSidepanel id)
    (λ h, Context.openExtensionSidepanel context h id).
End Call.

Definition updateResponse (f : ResponseBuilder → ResponseBuilder) : M unit :=
  λ w, (Normal (), {| calls := calls w; response := f (response w) |}).

Definition appendResponseLine (text : string) : M unit :=
  updateResponse (λ r,
    {| textLines := textLines r ++ [text];
       listExtensionsFlag := listExtensionsFlag r;
       includePagesFlag := includePagesFlag r |}).

Definition setListExtensions : M unit :=
  updateResponse (λ r,
    {| textLines := textLines r;
       listExtensionsFlag := true;
       includePagesFlag := includePagesFlag r |}).

Definition setIncludePages (value : bool) : M unit :=
  updateResponse (λ r,
    {| textLines := textLines r;
       listExtensionsFlag := listExtensionsFlag r;
       includePagesFlag := value |}).

(** ** Tool definitions *)

(** [ToolCategory] comes from [categories.js]; these are the two members
    [extensions.ts] refers to. *)
Inductive ToolCategory : Type := EXTENSIONS | DEBUGGING.

Definition ToolCategory_eq_dec : EqDecision ToolCategory.
Proof. solve_decision. Defined.
#[export] Existing Instance ToolCategory_eq_dec.

(** [conditions] is an optional key: the first revision never writes it. *)
Record ToolAnnotations : Type := mkAnnotations {
  category : ToolCategory;
  readOnlyHint : bool;
  conditions : option (list string);
}.

(** Every parameter of these tools is [zod.string().describe(...)]: a
    required string with a description. *)
Inductive ZodType : Type := ZodString.

Record SchemaField : Type := mkSchemaField {
  zodType : ZodType;
  isOptional : bool;
  fieldDescription : string;
}.

Definition zod_string : SchemaField :=
  {| zodType := ZodString; isOptional := false; fieldDescription := "" |}.

Definition describe (text : string) (field : SchemaField) : SchemaField :=
  {| zodType := zodType field; isOptional := isOptional field;
     fieldDescription := text |}.

(** The schema object literal, keys in source order. *)
Definition Schema : Type := list (string * SchemaField).

(** [request.params]: the validated parameters.  All declared parameters
    are strings, so the object is a map from key to string; [p !!! k] reads
    [request.params.k], which the schema's inferred type guarantees to be
    there. *)
Record Request : Type := mkRequest {
  params : gmap string string;
}.

(** [handler: async (request, response, context) => ...]; the [response]
    argument is the builder held in the state of [M]. *)
Record ToolDefinition : Type := defineTool {
  name : string;
  description : string;
  annotations : ToolAnnotations;
  schema : Schema;
  handler : Request → Context.t → M unit;
}.

(** [error instanceof Error ? error.message : String(error)] *)
Definition thrownText (error : Thrown) : string :=
  match error with
  | ErrorObject message => message
  | OtherValue rendered => rendered
  end.

(** A template literal spanning several source lines. *)
Definition newline : string := String (Ascii.ascii_of_nat 10) "".
Definition multiline (rows : list string) : string := String.concat newline rows.

(** [const {path} = request.params] and the like. *)
Definition param (key : string) (request : Request) : string :=
  params request !!! key.

(** *** First revision (lines 1-117) *)

Module First.

Definition installExtension : ToolDefinition := defineTool
  "install_extension"
  "Installs a Chrome extension from the given path."
  {| category := EXTENSIONS; readOnlyHint := false; conditions := None |}
  [("path", describe "Absolute path to the unpacked extension folder."
              zod_string)]
  (λ request context,
     let path := param "path" request in
     id ← Call.installExtension context path;
     appendResponseLine ("Extension installed. Id: " +:+ id)).

Definition uninstallExtension : ToolDefinition := defineTool
  "uninstall_extension"
  "Uninstalls a Chrome extension by its ID."
  {| category := EXTENSIONS; readOnlyHint := false; conditions := None |}
  [("id", describe "ID of the extension to uninstall." zod_string)]
  (λ request context,
     let id := param "id" request in
     Call.uninstallExtension context id;;
     appendResponseLine ("Extension uninstalled. Id: " +:+ id)).

Definition listExtensions : ToolDefinition := defineTool
  "list_extensions"
  ("Lists extensions installed via this server (using install_extension), including their name, ID, version, and path. "
   +:+ "Note: Pre-installed browser extensions are not shown here. Use list_pages to see all extension service workers.")
  {| category := EXTENSIONS; readOnlyHint := true; conditions := None |}
  []
  (λ _request _context, setListExtensions).

Definition reloadExtension : ToolDefinition := defineTool
  "reload_extension"
  "Reloads an unpacked Chrome extension by its ID."
  {| category := EXTENSIONS; readOnlyHint := false; conditions := None |}
  [("id", describe "ID of the extension to reload." zod_string)]
  (λ request context,
     let id := param "id" request in
     extension ← Call.getExtension context id;
     match extension with
     | None => throw (ErrorObject ("Extension with ID " +:+ id +:+ " not found."))
     | Some extension =>
         Call.installExtension context (Extension.path extension);;
         appendResponseLine "Extension reloaded."
     end).

Definition openExtensionSidepanel : ToolDefinition := defineTool
  "open_extension_sidepanel"
  (multiline [
     "Opens an extension's sidepanel for debugging. Due to Chrome security restrictions,";
     "the sidepanel opens in a detached popup window rather than docked to the browser sidebar.";
     "This provides full debugging capabilities (DOM inspection, console access, script evaluation)";
     "with identical code execution to docked mode. Only visual docking/layout differs.";
     "";
     "Requirements:";
     "- Extension must have a service worker running (check list_pages for service workers)";
     "- Extension must have side_panel.default_path in manifest.json";
     "";
     "After opening, use list_pages to see the sidepanel and select_page to interact with it."])
  {| category := EXTENSIONS; readOnlyHint := false; conditions := None |}
  [("id", describe
            ("The extension ID. Find IDs via list_pages (shown in Service Workers section) "
             +:+ "or list_extensions (for extensions installed via this server).")
            zod_string)]
  (λ request context,
     result ← Call.openExtensionSidepanel context (param "id" request);
     appendResponseLine ("Sidepanel opened: " +:+ SidepanelResult.url result);;
     appendResponseLine "";;
     appendResponseLine ("> " +:+ SidepanelResult.note result);;
     setIncludePages true).

(** The exported definitions, in source order. *)
Definition tools : list ToolDefinition :=
  [installExtension; uninstallExtension; listExtensions; reloadExtension;
   openExtensionSidepanel].

End First.

(** *** Second revision (lines 118-253) *)

Module Second.

Definition EXTENSIONS_CONDITION : string := "experimentalExtensionSupport".

Definition installExtension : ToolDefinition := defineTool
  "install_extension"
  "Installs a Chrome extension from the given path."
  {| category := EXTENSIONS; readOnlyHint := false;
     conditions := Some [EXTENSIONS_CONDITION] |}
  [("path", describe "Absolute path to the unpacked extension folder."
              zod_string)]
  (λ request context,
     let path := param "path" request in
     id ← Call.installExtension context path;
     appendResponseLine ("Extension installed. Id: " +:+ id)).

Definition uninstallExtension : ToolDefinition := defineTool
  "uninstall_extension"
  "Uninstalls a Chrome extension by its ID."
  {| category := EXTENSIONS; readOnlyHint := false;
     conditions := Some [EXTENSIONS_CONDITION] |}
  [("id", describe "ID of the extension to uninstall." zod_string)]
  (λ request context,
     let id := param "id" request in
     Call.uninstallExtension context id;;
     appendResponseLine ("Extension uninstalled. Id: " +:+ id)).

Definition listExtensions : ToolDefinition := defineTool
  "list_extensions"
  "Lists all extensions via this server, including their name, ID, version, and enabled status."
  {| category := EXTENSIONS; readOnlyHint := true;
     conditions := Some [EXTENSIONS_CONDITION] |}
  []
  (λ _request _context, setListExtensions).

Definition reloadExtension : ToolDefinition := defineTool
  "reload_extension"
  "Reloads an unpacked Chrome extension by its ID."
  {| category := EXTENSIONS; readOnlyHint := false;
     conditions := Some [EXTENSIONS_CONDITION] |}
  [("id", describe "ID of the extension to reload." zod_string)]
  (λ request context,
     let id := param "id" request in
     extension ← Call.getExtension context id;
     match extension with
     | None => throw (ErrorObject ("Extension with ID " +:+ id +:+ " not found."))
     | Some extension =>
         Call.installExtension context (Extension.path extension);;
         appendResponseLine "Extension reloaded."
     end).

Definition openExtensionSidepanel : ToolDefinition := defineTool
  "open_extension_sidepanel"
  (multiline [
     "Opens an extension's sidepanel for debugging. Due to Chrome security restrictions,";
     "the sidepanel opens in a detached popup window rather than docked to the browser sidebar.";
     "This provides full debugging capabilities (DOM inspection, console access, script evaluation)";
     "with identical code execution to docked mode. Only visual docking/layout differs.";
     "";
     "After opening, use list_pages to see the sidepanel and select_page to interact with it."])
  {| category := DEBUGGING; readOnlyHint := false; conditions := None |}
  [("extensionId", describe
            ("The ID of the extension whose sidepanel should be opened. "
             +:+ "Find extension IDs at chrome://extensions or from list_pages service worker URLs.")
            zod_string)]
  (λ request context,
     try_catch
       (result ← Call.openExtensionSidepanel context
                   (param "extensionId" request);
        appendResponseLine "# Sidepanel Opened Successfully";;
        appendResponseLine "";;
        appendResponseLine ("**URL:** " +:+ SidepanelResult.url result);;
        appendResponseLine
          ("**Window ID:** " +:+ pretty (SidepanelResult.windowId result));;
        appendResponseLine "";;
        appendResponseLine ("> " +:+ SidepanelResult.note result);;
        appendResponseLine "";;
        appendResponseLine
          "Use `list_pages` to see the sidepanel and `select_page` to interact with it.";;
        setIncludePages true)
       (λ error,
          let errorMessage := thrownText error in
          appendResponseLine "# Failed to Open Sidepanel";;
          appendResponseLine "";;
          appendResponseLine ("**Error:** " +:+ errorMessage);;
          appendResponseLine "";;
          appendResponseLine "**Troubleshooting:**";;
          appendResponseLine "- Ensure the extension is installed and enabled";;
          appendResponseLine
            "- Verify the extension has a `side_panel.default_path` in its manifest.json";;
          appendResponseLine
            "- Check that the extension has a service worker running";;
          appendResponseLine
            "- Use `list_pages` to see available service workers")).

Definition tools : list ToolDefinition :=
  [installExtension; uninstallExtension; listExtensions; reloadExtension;
   openExtensionSidepanel].

End Second.

(** ** Schema validator *)

(** A value of the raw parameter payload as it comes over the wire. *)
Inductive RawValue : Type :=
  | RawString (s : string)
  | RawNumber (z : Z)
  | RawBoolean (b : bool)
  | RawNull
  | RawStructured.

Inductive IssueKind : Type :=
  | MissingRequired
  | InvalidType
  | UnrecognizedKey.

Record Issue : Type := mkIssue {
  issueKey : string;
  issueKind : IssueKind;
  expected : option ZodType;
}.

Definition checkField (raw : gmap string RawValue)
    (entry : string * SchemaField) : list Issue :=
  match raw !! entry.1 with
  | None =>
      if isOptional entry.2 then []
      else [mkIssue entry.1 MissingRequired (Some (zodType entry.2))]
  | Some (RawString _) => []
  | Some _ => [mkIssue entry.1 InvalidType (Some (zodType entry.2))]
  end.

Definition declared (schema : Schema) (key : string) : bool :=
  bool_decide (key ∈ schema.*1).

Definition extraneousKeys (schema : Schema) (raw : gmap string RawValue)
    : list Issue :=
  (λ kv : string * RawValue, mkIssue kv.1 UnrecognizedKey None)
    <$> filter (λ kv, declared schema kv.1 = false) (map_to_list raw).

Definition typedField (raw : gmap string RawValue)
    (entry : string * SchemaField) : option (string * string) :=
  match raw !! entry.1 with
  | Some (RawString s) => Some (entry.1, s)
  | _ => None
  end.

(** Modelled from the spec: the schema validator of section 4.1 (the
    repository delegates it to its schema library and to [defineTool]'s
    caller, neither of which is in [extensions.ts]).  Every declared key is
    checked for presence and type, undeclared keys are rejected, and on
    success the typed object holds exactly the declared keys that were
    given. *)
Definition validate (schema : Schema) (raw : gmap string RawValue)
    : list Issue + Request :=
  match flat_map (checkField raw) schema ++ extraneousKeys schema raw with
  | [] => inr (mkRequest (list_to_map (omap (typedField raw) schema)))
  | issues => inl issues
  end.

(** ** Registry and dispatcher *)

Inductive DefinitionError : Type :=
  | DuplicateName (name : string).

Inductive DispatchError : Type :=
  | NotFoundError (name : string)
  | ValidationError (issues : list Issue).

(** The finalized response: the drained builder, and the failure of the
    handler when it signalled one. *)
Record Response : Type := mkResponse {
  responseLines : list string;
  listExtensions : bool;
  includePages : bool;
  handlerError : option Thrown;
}.

Record ToolSummary : Type := mkToolSummary {
  summaryName : string;
  summaryDescription : string;
  summarySchema : Schema;
  summaryCategory : ToolCategory;
}.

Definition Registry : Type := list ToolDefinition.

Definition names (registry : Registry) : list string := name <$> registry.

(** Modelled from the spec: [finalize] of section 4.4, draining the
    builder into an immutable response. *)
Definition finalize (builder : ResponseBuilder) : Response :=
  {| responseLines := textLines builder;
     listExtensions := listExtensionsFlag builder;
     includePages := includePagesFlag builder;
     handlerError := None |}.

Definition asHandlerError (e : Thrown) (r : Response) : Response :=
  {| responseLines := responseLines r;
     listExtensions := listExtensions r;
     includePages := includePages r;
     handlerError := Some e |}.

(** Modelled from the spec: [register] of section 4.3; a duplicate name is
    refused and the registry is left as it was. *)
Definition register (def : ToolDefinition) (registry : Registry)
    : DefinitionError + Registry :=
  if bool_decide (name def ∈ names registry)
  then inl (DuplicateName (name def))
  else inr (registry ++ [def]).

(** The declared conditions as a set; a definition without the key has
    none. *)
Definition conditionSet (def : ToolDefinition) : gset string :=
  list_to_set (default [] (conditions (annotations def))).

Definition conditionsMet (active : gset string) (def : ToolDefinition)
    : bool :=
  bool_decide (conditionSet def ⊆ active).

Definition summary (def : ToolDefinition) : ToolSummary :=
  {| summaryName := name def;
     summaryDescription := description def;
     summarySchema := schema def;
     summaryCategory := category (annotations def) |}.

(** Modelled from the spec: [listAvailable] of section 4.3, in
    registration order. *)
Definition listAvailable (registry : Registry) (active : gset string)
    : list ToolSummary :=
  summary <$> filter (λ def, conditionsMet active def = true) registry.

Definition lookupTool (registry : Registry) (n : string)
    : option ToolDefinition :=
  find (λ def, bool_decide (name def = n)) registry.

(** Step 1 of [invoke]: absent, or present but gated out. *)
Definition resolve (registry : Registry) (active : gset string) (n : string)
    : option ToolDefinition :=
  match lookupTool registry n with
  | Some def => if conditionsMet active def then Some def else None
  | None => None
  end.

(** Steps 3 to 6 of [invoke]: a fresh builder, one run of the handler, the
    builder drained; a failure of the handler becomes the response's
    [handlerError]. *)
Definition runHandler (def : ToolDefinition) (request : Request)
    (context : Context.t) (history : list ContextCall)
    : Response * list ContextCall :=
  let '(completion, w) :=
    handler def request context
      {| calls := history; response := freshBuilder |} in
  (match completion with
   | Normal _ => finalize (response w)
   | Throw e => asHandlerError e (finalize (response w))
   end, calls w).

(** Modelled from the spec: [invoke] of section 4.3.  [history] is the log
    of context calls before the invocation; the log after it is returned
    with the outcome. *)
Definition invoke (registry : Registry) (n : string)
    (raw : gmap string RawValue) (active : gset string)
    (context : Context.t) (history : list ContextCall)
    : (DispatchError + Response) * list ContextCall :=
  match resolve registry active n with
  | None => (inl (NotFoundError n), history)
  | Some def =>
      match validate (schema def) raw with
      | inl issues => (inl (ValidationError issues), history)
      | inr request =>
          let '(r, log) := runHandler def request context history in
          (inr r, log)
      end
  end.

(** Two definitions that differ in their handler at most. *)
Definition sameContract (d d' : ToolDefinition) : Prop :=
  name d = name d' ∧ annotations d = annotations d' ∧ schema d = schema d'.

(** The claim that tool [n] is gated on [condition]: not listed when no
    capability is active, listed whenever the condition is. *)
Definition gatedOn (condition : string) (registry : Registry) (n : string)
    : Prop :=
  (n ∉ (summaryName <$> listAvailable registry ∅))
  ∧ (∀ active : gset string,
       condition ∈ active →
       n ∈ (summaryName <$> listAvailable registry active)).

Definition isInstallCall (c : ContextCall) : bool :=
  match c with
  | CallInstallExtension _ => true
  | _ => false
  end.

(** How many times [installExtension] was called in a log. *)
Definition installCalls (log : list ContextCall) : nat :=
  length (filter (λ c, isInstallCall c = true) log).

(** ** Contexts and registries used as concrete instances *)

(** A context that answers the same whatever was called before. *)
Definition constantContext (install : Completion string)
    (lookup : option Extension.t) (sidepanel : Completion SidepanelResult.t)
    : Context.t :=
  {| Context.installExtension := λ _ _, install;
     Context.uninstallExtension := λ _ _, Normal ();
     Context.getExtension := λ _ _, lookup;
     Context.openExtensionSidepanel := λ _ _, sidepanel |}.

Definition requestOf (entries : list (string * string)) : Request :=
  mkRequest (list_to_map entries).

(** [def] with another handler in place of its own. *)
Definition withHandler (h : Request → Context.t → M unit)
    (def : ToolDefinition) : ToolDefinition :=
  defineTool (name def) (description def) (annotations def) (schema def) h.

(** A handler that would leave traces if it ever ran. *)
Definition noisyHandler : Request → Context.t → M unit :=
  λ _ context,
    Call.installExtension context "/never";;
    appendResponseLine "ran".

(** The lines the DEBUGGING-category handler renders in its [catch]. *)
Definition failureLines (error : Thrown) : list string :=
  ["# Failed to Open Sidepanel";
   "";
   "**Error:** " +:+ thrownText error;
   "";
   "**Troubleshooting:**";
   "- Ensure the extension is installed and enabled";
   "- Verify the extension has a `side_panel.default_path` in its manifest.json";
   "- Check that the extension has a service worker running";
   "- Use `list_pages` to see available service workers"].

(** The lines the DEBUGGING-category handler writes after a successful
    call. *)
Definition successLines (result : SidepanelResult.t) : list string :=
  ["# Sidepanel Opened Successfully";
   "";
   "**URL:** " +:+ SidepanelResult.url result;
   "**Window ID:** " +:+ pretty (SidepanelResult.windowId result);
   "";
   "> " +:+ SidepanelResult.note result;
   "";
   "Use `list_pages` to see the sidepanel and `select_page` to interact with it."].

(** The definitions of both revisions. *)
Definition allTools : list ToolDefinition := First.tools ++ Second.tools.

(** A context whose [uninstallExtension] is rejected. *)
Definition uninstallFailing (error : Thrown) : Context.t :=
  {| Context.installExtension := λ _ _, Normal "unused";
     Context.uninstallExtension := λ _ _, Throw error;
     Context.getExtension := λ _ _, None;
     Context.openExtensionSidepanel := λ _ _, Throw error |}.

(** * Properties *)

(** ** The monad and the builder *)

(** Unfolds the operations of [M] down to functions on worlds. *)
Ltac unfold_M :=
  unfold mbind, M_bind, mret, M_ret, throw, try_catch,
    appendResponseLine, setListExtensions, setIncludePages, updateResponse,
    Call.installExtension, Call.uninstallExtension, Call.getExtension,
    Call.openExtensionSidepanel, contextCall.

Lemma bind_Normal {A B : Type} (m : M A) (k : A → M B) (w w' : World) (a : A) :
  m w = (Normal a, w') → (m ≫= k) w = k a w'.
Proof. intros Hm. unfold_M. by rewrite Hm. Qed.

Lemma bind_Throw {A B : Type} (m : M A) (k : A → M B) (w w' : World)
    (e : Thrown) :
  m w = (Throw e, w') → (m ≫= k) w = (Throw e, w').
Proof. intros Hm. unfold_M. by rewrite Hm. Qed.

Lemma contextCall_run {A : Type} (c : ContextCall)
    (behaviour : list ContextCall → Completion A) (w : World) :
  contextCall c behaviour w
  = (behaviour (calls w), mkWorld (calls w ++ [c]) (response w)).
Proof. reflexivity. Qed.

Lemma try_catch_Normal {A : Type} (body : M A) (h : Thrown → M A)
    (w w' : World) (a : A) :
  body w = (Normal a, w') → try_catch body h w = (Normal a, w').
Proof. intros Hb. unfold try_catch. by rewrite Hb. Qed.

Lemma try_catch_Throw {A : Type} (body : M A) (h : Thrown → M A)
    (w w' : World) (e : Thrown) :
  body w = (Throw e, w') → try_catch body h w = h e w'.
Proof. intros Hb. unfold try_catch. by rewrite Hb. Qed.

Lemma bind_call_Normal {A B : Type} (c : ContextCall)
    (behaviour : list ContextCall → Completion A) (k : A → M B)
    (w : World) (a : A) :
  behaviour (calls w) = Normal a →
  (contextCall c behaviour ≫= k) w
  = k a (mkWorld (calls w ++ [c]) (response w)).
Proof. intros Hb. unfold mbind, M_bind, contextCall. by rewrite Hb. Qed.

Lemma bind_call_Throw {A B : Type} (c : ContextCall)
    (behaviour : list ContextCall → Completion A) (k : A → M B)
    (w : World) (e : Thrown) :
  behaviour (calls w) = Throw e →
  (contextCall c behaviour ≫= k) w
  = (Throw e, mkWorld (calls w ++ [c]) (response w)).
Proof. intros Hb. unfold mbind, M_bind, contextCall. by rewrite Hb. Qed.

(** Lines come out in the order they were appended. *)
Lemma appendResponseLine_order (a b : string) (w : World) :
  (appendResponseLine a;; appendResponseLine b) w
  = (Normal (),
     mkWorld (calls w)
       (mkResponseBuilder (textLines (response w) ++ [a; b])
          (listExtensionsFlag (response w)) (includePagesFlag (response w)))).
Proof. unfold_M. cbn. by rewrite <- app_assoc. Qed.

(** The last write of a flag wins. *)
Lemma setIncludePages_last_wins (a b : bool) (w : World) :
  (setIncludePages a;; setIncludePages b) w = setIncludePages b w.
Proof. reflexivity. Qed.

(** ** Lookup, gating and registration *)

Lemma conditionsMet_subseteq (active : gset string) (def : ToolDefinition) :
  conditionsMet active def = true ↔ conditionSet def ⊆ active.
Proof. unfold conditionsMet. apply bool_decide_eq_true. Qed.

Lemma lookupTool_Some (registry : Registry) (n : string)
    (def : ToolDefinition) :
  lookupTool registry n = Some def → name def = n ∧ def ∈ registry.
Proof.
  unfold lookupTool. induction registry as [|d registry IH]; [done|].
  cbn. case_bool_decide as Hd.
  - intros [= <-]. split; [done | apply list_elem_of_here].
  - intros H. destruct (IH H) as [? ?]. split; [done|].
    by apply list_elem_of_further.
Qed.

Lemma lookupTool_unregistered (registry : Registry) (n : string) :
  n ∉ names registry → lookupTool registry n = None.
Proof.
  unfold lookupTool, names. induction registry as [|d registry IH]; [done|].
  cbn. intros Hn. apply not_elem_of_cons in Hn as [Hd Hn].
  case_bool_decide; [congruence | by apply IH].
Qed.

Lemma lookupTool_registered (registry : Registry) (def : ToolDefinition) :
  NoDup (names registry) → def ∈ registry →
  lookupTool registry (name def) = Some def.
Proof.
  unfold lookupTool, names. induction registry as [|d registry IH].
  - intros _ H. by apply elem_of_nil in H.
  - cbn. intros Hnd Hin. apply NoDup_cons in Hnd as [Hd Hnd].
    apply elem_of_cons in Hin as [-> | Hin].
    + by rewrite bool_decide_eq_true_2.
    + rewrite bool_decide_eq_false_2; [by apply IH|].
      intros Heq. apply Hd. rewrite Heq.
      by apply list_elem_of_fmap_2.
Qed.

Lemma register_keeps_names_distinct (def : ToolDefinition)
    (registry registry' : Registry) :
  NoDup (names registry) → register def registry = inr registry' →
  NoDup (names registry').
Proof.
  unfold register. case_bool_decide as Hin; [done|].
  intros Hnd [= <-]. unfold names in *. rewrite fmap_app. cbn.
  apply NoDup_app. split; [done|]. split.
  - intros x Hx Hx'. apply list_elem_of_singleton in Hx'. by subst.
  - apply NoDup_singleton.
Qed.

Lemma register_duplicate (def : ToolDefinition) (registry : Registry) :
  name def ∈ names registry →
  register def registry = inl (DuplicateName (name def)).
Proof. intros Hin. unfold register. by rewrite bool_decide_eq_true_2. Qed.

Lemma lookupTool_sameContract (registry registry' : Registry) (n : string) :
  Forall2 sameContract registry registry' →
  option_Forall2 sameContract
    (lookupTool registry n) (lookupTool registry' n).
Proof.
  unfold lookupTool. induction 1 as [|d d' r r' Hd _ IH]; cbn.
  - constructor.
  - destruct Hd as (Hn & Ha & Hs). rewrite <- Hn.
    case_bool_decide; [by constructor | done].
Qed.

Lemma resolve_sameContract (registry registry' : Registry)
    (active : gset string) (n : string) :
  Forall2 sameContract registry registry' →
  option_Forall2 sameContract
    (resolve registry active n) (resolve registry' active n).
Proof.
  intros H. unfold resolve.
  destruct (lookupTool_sameContract _ _ n H) as [d d' Hd|]; [|constructor].
  assert (conditionsMet active d' = conditionsMet active d) as ->.
  { unfold conditionsMet, conditionSet. destruct Hd as (_ & <- & _). done. }
  destruct (conditionsMet active d); by constructor.
Qed.

(** ** The validator *)

Lemma validate_missing_required (schema : Schema)
    (raw : gmap string RawValue) (key : string) (field : SchemaField) :
  (key, field) ∈ schema → isOptional field = false → raw !! key = None →
  ∃ issues,
    validate schema raw = inl issues
    ∧ mkIssue key MissingRequired (Some (zodType field)) ∈ issues.
Proof.
  intros Hin Hreq Hraw.
  assert (mkIssue key MissingRequired (Some (zodType field))
            ∈ flat_map (checkField raw) schema ++ extraneousKeys schema raw)
    as Hissue.
  { apply elem_of_app. left. apply list_elem_of_In, in_flat_map.
    exists (key, field). split; [by apply list_elem_of_In|].
    unfold checkField. cbn. rewrite Hraw, Hreq. by left. }
  unfold validate.
  destruct (flat_map (checkField raw) schema ++ extraneousKeys schema raw)
    as [|i issues].
  - by apply elem_of_nil in Hissue.
  - by eexists.
Qed.

(** ** The dispatcher *)

Lemma invoke_runs_handler (registry : Registry) (n : string)
    (raw : gmap string RawValue) (active : gset string)
    (context : Context.t) (history : list ContextCall)
    (def : ToolDefinition) (request : Request) :
  resolve registry active n = Some def →
  validate (schema def) raw = inr request →
  invoke registry n raw active context history
  = (inr (runHandler def request context history).1,
     (runHandler def request context history).2).
Proof.
  intros Hres Hval. unfold invoke. rewrite Hres, Hval.
  by destruct (runHandler def request context history).
Qed.

Lemma invoke_not_found (registry : Registry) (n : string)
    (raw : gmap string RawValue) (active : gset string)
    (context : Context.t) (history : list ContextCall) :
  resolve registry active n = None →
  invoke registry n raw active context history
  = (inl (NotFoundError n), history).
Proof. intros Hres. unfold invoke. by rewrite Hres. Qed.

(** The two revisions of a handler that was not edited run alike. *)
Lemma installExtension_handler_unchanged :
  handler Second.installExtension = handler First.installExtension.
Proof. reflexivity. Qed.

Lemma reloadExtension_handler_unchanged :
  handler Second.reloadExtension = handler First.reloadExtension.
Proof. reflexivity. Qed.

(** ** The handlers *)

(** C2: when [context.installExtension(path)] succeeds with [id], an
    invocation of [install_extension] on validated parameters finishes
    normally, has called the context once with that path, and its finalized
    response holds the line [Extension installed. Id: ${id}]. *)
Theorem install_extension_reports_id (context : Context.t)
    (request : Request) (history : list ContextCall) (id : string) :
  Context.installExtension context history (param "path" request)
    = Normal id →
  runHandler First.installExtension request context history
    = ({| responseLines := ["Extension installed. Id: " +:+ id];
          listExtensions := false; includePages := false;
          handlerError := None |},
       history ++ [CallInstallExtension (param "path" request)])
  ∧ ("Extension installed. Id: " +:+ id)
      ∈ responseLines
          (runHandler First.installExtension request context history).1.
Proof.
  intros Hinstall.
  assert (runHandler First.installExtension request context history
    = ({| responseLines := ["Extension installed. Id: " +:+ id];
          listExtensions := false; includePages := false;
          handlerError := None |},
       history ++ [CallInstallExtension (param "path" request)])) as Hrun.
  { unfold runHandler, First.installExtension, handler. unfold_M.
    cbn [calls response]. by rewrite Hinstall. }
  split; [done|]. rewrite Hrun. cbn. apply list_elem_of_here.
Qed.

Lemma install_extension_reports_id_scenario :
  Context.installExtension
    (constantContext (Normal "abc123") None (Throw (ErrorObject "unused")))
    [] (param "path" (requestOf [("path", "/tmp/ext")])) = Normal "abc123"
  ∧ "Extension installed. Id: abc123"
      ∈ responseLines
          (runHandler First.installExtension
             (requestOf [("path", "/tmp/ext")])
             (constantContext (Normal "abc123") None
                (Throw (ErrorObject "unused"))) []).1.
Proof.
  split; [reflexivity|].
  apply (install_extension_reports_id
           (constantContext (Normal "abc123") None
              (Throw (ErrorObject "unused")))
           (requestOf [("path", "/tmp/ext")]) [] "abc123").
  reflexivity.
Defined.

(** C6: when [context.openExtensionSidepanel] succeeds with
    [{url, note, windowId}], the EXTENSIONS-category handler leaves exactly
    the lines [Sidepanel opened: ${url}], the empty line and [> ${note}],
    in the order of its [appendResponseLine] calls, and the include-pages
    flag is true. *)
Theorem open_extension_sidepanel_success_lines (context : Context.t)
    (request : Request) (history : list ContextCall)
    (result : SidepanelResult.t) :
  Context.openExtensionSidepanel context history (param "id" request)
    = Normal result →
  runHandler First.openExtensionSidepanel request context history
  = ({| responseLines :=
          ["Sidepanel opened: " +:+ SidepanelResult.url result;
           "";
           "> " +:+ SidepanelResult.note result];
        listExtensions := false; includePages := true;
        handlerError := None |},
     history ++ [CallOpenExtensionSidepanel (param "id" request)]).
Proof.
  intros Hopen.
  unfold runHandler, First.openExtensionSidepanel, handler. unfold_M.
  cbn [calls response]. by rewrite Hopen.
Qed.

Lemma open_extension_sidepanel_success_lines_scenario :
  runHandler First.openExtensionSidepanel
    (requestOf [("id", "ext1")])
    (constantContext (Normal "unused") None
       (Normal (SidepanelResult.Build "chrome-extension://ext1/panel.html"
                  "Opened in a popup window." 7))) []
  = ({| responseLines :=
          ["Sidepanel opened: chrome-extension://ext1/panel.html";
           "";
           "> Opened in a popup window."];
        listExtensions := false; includePages := true;
        handlerError := None |},
     [CallOpenExtensionSidepanel "ext1"]).
Proof.
  exact (open_extension_sidepanel_success_lines
           (constantContext (Normal "unused") None
              (Normal (SidepanelResult.Build
                         "chrome-extension://ext1/panel.html"
                         "Opened in a popup window." 7)))
           (requestOf [("id", "ext1")]) []
           (SidepanelResult.Build "chrome-extension://ext1/panel.html"
              "Opened in a popup window." 7)
           eq_refl).
Defined.

Lemma second_sidepanel_failure_run (context : Context.t) (request : Request)
    (history : list ContextCall) (error : Thrown) :
  Context.openExtensionSidepanel context history
    (param "extensionId" request) = Throw error →
  runHandler Second.openExtensionSidepanel request context history
  = ({| responseLines := failureLines error;
        listExtensions := false; includePages := false;
        handlerError := None |},
     history ++ [CallOpenExtensionSidepanel (param "extensionId" request)]).
Proof.
  intros Hopen.
  unfold runHandler, Second.openExtensionSidepanel, handler,
    Call.openExtensionSidepanel.
  by rewrite (try_catch_Throw _ _ _ _ _
                (bind_call_Throw _
                   (λ h, Context.openExtensionSidepanel context h
                           (param "extensionId" request))
                   _ (mkWorld history freshBuilder) _ Hopen)).
Qed.

Lemma first_sidepanel_failure_run (context : Context.t) (request : Request)
    (history : list ContextCall) (error : Thrown) :
  Context.openExtensionSidepanel context history (param "id" request)
    = Throw error →
  runHandler First.openExtensionSidepanel request context history
  = ({| responseLines := [];
        listExtensions := false; includePages := false;
        handlerError := Some error |},
     history ++ [CallOpenExtensionSidepanel (param "id" request)]).
Proof.
  intros Hopen.
  unfold runHandler, First.openExtensionSidepanel, handler. unfold_M.
  cbn [calls response]. by rewrite Hopen.
Qed.

(** C7: when [context.openExtensionSidepanel] fails, the
    DEBUGGING-category handler catches the error itself: the run ends
    normally (no handler error reaches the dispatcher), and the finalized
    response is not empty: it has a non-empty line, and the line
    [**Error:** ${errorMessage}] carrying the message of the error. *)
Theorem open_extension_sidepanel_failure_rendered (context : Context.t)
    (request : Request) (history : list ContextCall) (error : Thrown) :
  Context.openExtensionSidepanel context history
    (param "extensionId" request) = Throw error →
  let r :=
    (runHandler Second.openExtensionSidepanel request context history).1 in
  handlerError r = None
  ∧ responseLines r = failureLines error
  ∧ ("**Error:** " +:+ thrownText error) ∈ responseLines r
  ∧ (∃ line, line ∈ responseLines r ∧ line ≠ "").
Proof.
  intros Hopen r. subst r.
  rewrite (second_sidepanel_failure_run _ _ _ _ Hopen). cbn.
  split; [done|]. split; [done|]. split.
  - unfold failureLines. set_solver.
  - exists "# Failed to Open Sidepanel". split; [|done].
    apply list_elem_of_here.
Qed.

Lemma open_extension_sidepanel_failure_rendered_scenario :
  let r :=
    (runHandler Second.openExtensionSidepanel
       (requestOf [("extensionId", "ext1")])
       (constantContext (Normal "unused") None
          (Throw (ErrorObject "No service worker found"))) []).1 in
  handlerError r = None
  ∧ responseLines r = failureLines (ErrorObject "No service worker found")
  ∧ "**Error:** No service worker found" ∈ responseLines r
  ∧ (∃ line, line ∈ responseLines r ∧ line ≠ "").
Proof.
  exact (open_extension_sidepanel_failure_rendered
           (constantContext (Normal "unused") None
              (Throw (ErrorObject "No service worker found")))
           (requestOf [("extensionId", "ext1")]) []
           (ErrorObject "No service worker found")
           eq_refl).
Defined.

(** C8: the two definitions named [open_extension_sidepanel] differ: in
    the key of their schema ([id], [extensionId]), in their category
    (EXTENSIONS, DEBUGGING), and on a failing context call, where the first
    lets the error reach the dispatcher with nothing written and the second
    catches it and writes its failure message. *)
Theorem open_extension_sidepanel_definitions_differ (context : Context.t)
    (request1 request2 : Request) (history : list ContextCall)
    (error : Thrown) :
  Context.openExtensionSidepanel context history (param "id" request1)
    = Throw error →
  Context.openExtensionSidepanel context history
    (param "extensionId" request2) = Throw error →
  name First.openExtensionSidepanel = name Second.openExtensionSidepanel
  ∧ (schema First.openExtensionSidepanel).*1 = ["id"]
  ∧ (schema Second.openExtensionSidepanel).*1 = ["extensionId"]
  ∧ (schema First.openExtensionSidepanel).*1
      ≠ (schema Second.openExtensionSidepanel).*1
  ∧ category (annotations First.openExtensionSidepanel) = EXTENSIONS
  ∧ category (annotations Second.openExtensionSidepanel) = DEBUGGING
  ∧ category (annotations First.openExtensionSidepanel)
      ≠ category (annotations Second.openExtensionSidepanel)
  ∧ (runHandler First.openExtensionSidepanel request1 context history).1
      = {| responseLines := []; listExtensions := false;
           includePages := false; handlerError := Some error |}
  ∧ (runHandler Second.openExtensionSidepanel request2 context history).1
      = {| responseLines := failureLines error; listExtensions := false;
           includePages := false; handlerError := None |}
  ∧ handler First.openExtensionSidepanel
      ≠ handler Second.openExtensionSidepanel.
Proof.
  intros Hid HextensionId.
  rewrite (first_sidepanel_failure_run _ _ _ _ Hid).
  rewrite (second_sidepanel_failure_run _ _ _ _ HextensionId).
  repeat (split; [done|]).
  intros Heq.
  pose (failing := constantContext (Normal "") None (Throw error)).
  pose proof (first_sidepanel_failure_run failing request1 [] error eq_refl)
    as H1.
  pose proof (second_sidepanel_failure_run failing request1 [] error eq_refl)
    as H2.
  unfold runHandler in H1, H2. rewrite Heq in H1.
  destruct (handler Second.openExtensionSidepanel request1 failing _)
    as [[[]|e] w]; simplify_eq.
Qed.

Lemma open_extension_sidepanel_definitions_differ_scenario :
  (runHandler First.openExtensionSidepanel (requestOf [("id", "ext1")])
     (constantContext (Normal "unused") None
        (Throw (ErrorObject "No service worker found"))) []).1
    = {| responseLines := []; listExtensions := false;
         includePages := false;
         handlerError := Some (ErrorObject "No service worker found") |}
  ∧ (runHandler Second.openExtensionSidepanel
       (requestOf [("extensionId", "ext1")])
       (constantContext (Normal "unused") None
          (Throw (ErrorObject "No service worker found"))) []).1
    = {| responseLines := failureLines (ErrorObject "No service worker found");
         listExtensions := false; includePages := false;
         handlerError := None |}.
Proof.
  pose proof (open_extension_sidepanel_definitions_differ
                (constantContext (Normal "unused") None
                   (Throw (ErrorObject "No service worker found")))
                (requestOf [("id", "ext1")])
                (requestOf [("extensionId", "ext1")]) []
                (ErrorObject "No service worker found")
                eq_refl eq_refl) as H.
  split; apply H.
Defined.

(** C9: the [list_extensions] handler, in both revisions, calls nothing on
    the context and appends no line; it sets the list-extensions flag and
    leaves the rest of the builder (lines, include-pages flag) as it was. *)
Theorem list_extensions_only_sets_flag (request : Request)
    (context : Context.t) (w : World) :
  handler First.listExtensions request context w
    = (Normal (),
       {| calls := calls w;
          response :=
            {| textLines := textLines (response w);
               listExtensionsFlag := true;
               includePagesFlag := includePagesFlag (response w) |} |})
  ∧ handler Second.listExtensions request context w
    = handler First.listExtensions request context w.
Proof. split; reflexivity. Qed.

Lemma reload_extension_found_run (context : Context.t) (request : Request)
    (history : list ContextCall) (extension : Extension.t) :
  Context.getExtension context history (param "id" request)
    = Some extension →
  runHandler First.reloadExtension request context history
  = (match Context.installExtension context
             (history ++ [CallGetExtension (param "id" request)])
             (Extension.path extension) with
     | Normal _ =>
         {| responseLines := ["Extension reloaded."];
            listExtensions := false; includePages := false;
            handlerError := None |}
     | Throw e =>
         {| responseLines := [];
            listExtensions := false; includePages := false;
            handlerError := Some e |}
     end,
     history ++ [CallGetExtension (param "id" request);
                 CallInstallExtension (Extension.path extension)]).
Proof.
  intros Hget.
  unfold runHandler, First.reloadExtension, handler. unfold_M.
  cbn [calls response]. rewrite Hget.
  destruct (Context.installExtension _ _ _); cbn;
    by rewrite <- app_assoc.
Qed.

Lemma installCalls_app (log log' : list ContextCall) :
  installCalls (log ++ log') = installCalls log + installCalls log'.
Proof. unfold installCalls. by rewrite filter_app, length_app. Qed.

(** C10: when [context.getExtension(id)] yields a record, the
    [reload_extension] handler, in both revisions, calls
    [context.installExtension] exactly once, with the [path] stored in the
    record, and when that call succeeds the finalized response consists of
    the line [Extension reloaded.]. *)
Theorem reload_extension_reinstalls_from_path (context : Context.t)
    (request : Request) (history : list ContextCall)
    (extension : Extension.t) :
  Context.getExtension context history (param "id" request)
    = Some extension →
  let run := runHandler First.reloadExtension request context history in
  runHandler Second.reloadExtension request context history = run
  ∧ run.2 = history ++ [CallGetExtension (param "id" request);
                        CallInstallExtension (Extension.path extension)]
  ∧ installCalls run.2 = S (installCalls history)
  ∧ (∀ newId,
       Context.installExtension context
         (history ++ [CallGetExtension (param "id" request)])
         (Extension.path extension) = Normal newId →
       run.1 = {| responseLines := ["Extension reloaded."];
                  listExtensions := false; includePages := false;
                  handlerError := None |}).
Proof.
  intros Hget run. subst run.
  split; [reflexivity|].
  rewrite (reload_extension_found_run _ _ _ _ Hget). cbn [fst snd].
  split; [done|]. split.
  - rewrite installCalls_app.
    change (installCalls [_; _]) with 1. lia.
  - intros newId Hinstall. by rewrite Hinstall.
Qed.

(** The stored path is what is installed, not the id. *)
Lemma reload_extension_reinstalls_from_path_scenario :
  let context :=
    constantContext (Normal "ext1")
      (Some (Extension.Build "ext1" "Demo" "1.0" "/home/me/demo"))
      (Throw (ErrorObject "unused")) in
  let run :=
    runHandler First.reloadExtension (requestOf [("id", "ext1")]) context []
  in
  runHandler Second.reloadExtension (requestOf [("id", "ext1")]) context []
    = run
  ∧ run.2 = [CallGetExtension "ext1"; CallInstallExtension "/home/me/demo"]
  ∧ installCalls run.2 = 1
  ∧ (∀ newId,
       Normal "ext1" = Normal newId →
       run.1 = {| responseLines := ["Extension reloaded."];
                  listExtensions := false; includePages := false;
                  handlerError := None |}).
Proof.
  exact (reload_extension_reinstalls_from_path
           (constantContext (Normal "ext1")
              (Some (Extension.Build "ext1" "Demo" "1.0" "/home/me/demo"))
              (Throw (ErrorObject "unused")))
           (requestOf [("id", "ext1")]) []
           (Extension.Build "ext1" "Demo" "1.0" "/home/me/demo")
           eq_refl).
Defined.

Lemma reload_extension_absent_run (context : Context.t) (request : Request)
    (history : list ContextCall) :
  Context.getExtension context history (param "id" request) = None →
  runHandler First.reloadExtension request context history
  = ({| responseLines := [];
        listExtensions := false; includePages := false;
        handlerError :=
          Some (ErrorObject
                  ("Extension with ID " +:+ param "id" request
                   +:+ " not found.")) |},
     history ++ [CallGetExtension (param "id" request)]).
Proof.
  intros Hget.
  unfold runHandler, First.reloadExtension, handler. unfold_M.
  cbn [calls response]. by rewrite Hget.
Qed.

(** C4: an invocation of [reload_extension] (either revision) whose id is
    unknown to [context.getExtension] ends in a response carrying the
    handler's error [Extension with ID ${id} not found.], not in a crash
    of the dispatcher; no line was appended, and [installExtension] was not
    called: the one call made on the context is [getExtension]. *)
Theorem reload_extension_unknown_id (registry : Registry) (n : string)
    (raw : gmap string RawValue) (active : gset string)
    (context : Context.t) (history : list ContextCall)
    (def : ToolDefinition) (request : Request) :
  def = First.reloadExtension ∨ def = Second.reloadExtension →
  resolve registry active n = Some def →
  validate (schema def) raw = inr request →
  Context.getExtension context history (param "id" request) = None →
  let outcome := invoke registry n raw active context history in
  outcome.1
    = inr {| responseLines := [];
             listExtensions := false; includePages := false;
             handlerError :=
               Some (ErrorObject
                       ("Extension with ID " +:+ param "id" request
                        +:+ " not found.")) |}
  ∧ outcome.2 = history ++ [CallGetExtension (param "id" request)]
  ∧ installCalls outcome.2 = installCalls history.
Proof.
  intros Hdef Hres Hval Hget outcome. subst outcome.
  rewrite (invoke_runs_handler _ _ _ _ _ _ _ _ Hres Hval). cbn [fst snd].
  assert (runHandler def request context history
          = runHandler First.reloadExtension request context history) as ->.
  { by destruct Hdef as [-> | ->]. }
  rewrite (reload_extension_absent_run _ _ _ Hget). cbn [fst snd].
  split; [done|]. split; [done|].
  rewrite installCalls_app. change (installCalls [_]) with 0. lia.
Qed.

Lemma reload_extension_unknown_id_scenario :
  let outcome :=
    invoke First.tools "reload_extension" {[ "id" := RawString "ghost" ]} ∅
      (constantContext (Normal "unused") None (Throw (ErrorObject "unused")))
      [] in
  outcome.1
    = inr {| responseLines := [];
             listExtensions := false; includePages := false;
             handlerError :=
               Some (ErrorObject "Extension with ID ghost not found.") |}
  ∧ outcome.2 = [CallGetExtension "ghost"]
  ∧ installCalls outcome.2 = 0.
Proof.
  exact (reload_extension_unknown_id First.tools "reload_extension"
           {[ "id" := RawString "ghost" ]} ∅
           (constantContext (Normal "unused") None
              (Throw (ErrorObject "unused")))
           [] First.reloadExtension (requestOf [("id", "ghost")])
           (or_introl eq_refl) eq_refl eq_refl eq_refl).
Defined.

(** ** Validation failures *)

(** C3: when the payload lacks a key that the resolved tool's schema
    requires, [invoke] returns a [ValidationError] whose issues name that
    key, the context's call log is left as it was (so [installExtension]
    was not called), and the handler was not run: the outcome is the same
    with any other handler in its place. *)
Theorem invoke_missing_required_key (registry registry' : Registry)
    (n : string) (raw : gmap string RawValue) (active : gset string)
    (context : Context.t) (history : list ContextCall)
    (def : ToolDefinition) (key : string) (field : SchemaField) :
  resolve registry active n = Some def →
  (key, field) ∈ schema def →
  isOptional field = false →
  raw !! key = None →
  Forall2 sameContract registry registry' →
  ∃ issues,
    invoke registry n raw active context history
      = (inl (ValidationError issues), history)
    ∧ mkIssue key MissingRequired (Some (zodType field)) ∈ issues
    ∧ invoke registry' n raw active context history
      = (inl (ValidationError issues), history).
Proof.
  intros Hres Hfield Hreq Hraw Hsame.
  destruct (validate_missing_required _ _ _ _ Hfield Hreq Hraw)
    as (issues & Hval & Hissue).
  exists issues. split; [|split; [done|]].
  - unfold invoke. by rewrite Hres, Hval.
  - pose proof (resolve_sameContract _ _ active n Hsame) as Hres'.
    rewrite Hres in Hres'. inversion Hres' as [d d' Hd Hd1 Hd2|].
    destruct Hd as (_ & _ & Hschema).
    unfold invoke. rewrite <- Hd2, <- Hschema. by rewrite Hval.
Qed.

Lemma invoke_missing_required_key_scenario :
  ∃ issues,
    invoke First.tools "install_extension" ∅ ∅
        (constantContext (Normal "abc123") None
           (Throw (ErrorObject "unused"))) []
      = (inl (ValidationError issues), [])
    ∧ mkIssue "path" MissingRequired (Some ZodString) ∈ issues
    ∧ invoke (withHandler noisyHandler <$> First.tools)
        "install_extension" ∅ ∅
        (constantContext (Normal "abc123") None
           (Throw (ErrorObject "unused"))) []
      = (inl (ValidationError issues), []).
Proof.
  apply (invoke_missing_required_key First.tools
           (withHandler noisyHandler <$> First.tools)
           "install_extension" ∅ ∅
           (constantContext (Normal "abc123") None
              (Throw (ErrorObject "unused")))
           [] First.installExtension "path"
           (describe "Absolute path to the unpacked extension folder."
              zod_string)).
  - reflexivity.
  - apply list_elem_of_here.
  - reflexivity.
  - reflexivity.
  - repeat constructor.
Defined.

(** ** Gating *)

Lemma listAvailable_names (registry : Registry) (active : gset string)
    (n : string) :
  n ∈ (summaryName <$> listAvailable registry active)
  ↔ ∃ def, def ∈ registry ∧ name def = n ∧ conditionSet def ⊆ active.
Proof.
  unfold listAvailable. rewrite <- list_fmap_compose, list_elem_of_fmap.
  split.
  - intros (def & -> & Hin). apply list_elem_of_filter in Hin as [Hmet Hin].
    exists def. split; [done|]. split; [done|].
    by apply conditionsMet_subseteq.
  - intros (def & Hin & <- & Hsub). exists def. split; [done|].
    apply list_elem_of_filter. split; [|done].
    by apply conditionsMet_subseteq.
Qed.

(** C5: a registered tool whose conditions are not all active is reported
    by [invoke] as [NotFoundError] with the context untouched, which is
    what [invoke] returns for that name on any registry that never held
    it. *)
Theorem gated_tool_same_as_unregistered (registry never : Registry)
    (T : ToolDefinition) (raw : gmap string RawValue)
    (active : gset string) (context : Context.t)
    (history : list ContextCall) :
  NoDup (names registry) →
  T ∈ registry →
  conditionSet T ⊈ active →
  name T ∉ names never →
  invoke registry (name T) raw active context history
    = (inl (NotFoundError (name T)), history)
  ∧ invoke never (name T) raw active context history
    = invoke registry (name T) raw active context history.
Proof.
  intros Hnd Hin Hgated Hnever.
  assert (invoke registry (name T) raw active context history
          = (inl (NotFoundError (name T)), history)) as Hreg.
  { apply invoke_not_found. unfold resolve.
    rewrite (lookupTool_registered _ _ Hnd Hin).
    destruct (conditionsMet active T) eqn:Hmet; [|done].
    by apply conditionsMet_subseteq in Hmet. }
  split; [done|]. rewrite Hreg.
  apply invoke_not_found. unfold resolve.
  by rewrite (lookupTool_unregistered _ _ Hnever).
Qed.

Lemma gated_tool_same_as_unregistered_scenario :
  invoke Second.tools "install_extension"
      {[ "path" := RawString "/tmp/ext" ]} ∅
      (constantContext (Normal "abc123") None (Throw (ErrorObject "unused")))
      []
    = (inl (NotFoundError "install_extension"), [])
  ∧ invoke [Second.openExtensionSidepanel] "install_extension"
      {[ "path" := RawString "/tmp/ext" ]} ∅
      (constantContext (Normal "abc123") None (Throw (ErrorObject "unused")))
      []
    = invoke Second.tools "install_extension"
        {[ "path" := RawString "/tmp/ext" ]} ∅
        (constantContext (Normal "abc123") None
           (Throw (ErrorObject "unused"))) [].
Proof.
  apply (gated_tool_same_as_unregistered Second.tools
           [Second.openExtensionSidepanel] Second.installExtension
           {[ "path" := RawString "/tmp/ext" ]} ∅
           (constantContext (Normal "abc123") None
              (Throw (ErrorObject "unused"))) []).
  - apply (bool_decide_unpack _). vm_compute. exact I.
  - apply list_elem_of_here.
  - apply (bool_decide_unpack _). vm_compute. exact I.
  - apply (bool_decide_unpack _). vm_compute. exact I.
Defined.

Lemma Second_tools_inv (def : ToolDefinition) :
  def ∈ Second.tools →
  def = Second.installExtension ∨ def = Second.uninstallExtension
  ∨ def = Second.listExtensions ∨ def = Second.reloadExtension
  ∨ def = Second.openExtensionSidepanel.
Proof.
  unfold Second.tools. rewrite !elem_of_cons, elem_of_nil. tauto.
Qed.

(** What the second revision's [conditions: [EXTENSIONS_CONDITION]] does
    to a tool. *)
Lemma second_revision_gated (def : ToolDefinition) :
  def ∈ Second.tools →
  conditions (annotations def) = Some [Second.EXTENSIONS_CONDITION] →
  gatedOn Second.EXTENSIONS_CONDITION Second.tools (name def).
Proof.
  intros Hin Hcond. split.
  - intros Hlisted.
    apply listAvailable_names in Hlisted as (def' & Hin' & Hname & Hsub).
    assert (conditions (annotations def')
            = Some [Second.EXTENSIONS_CONDITION]) as Hcond'.
    { destruct (Second_tools_inv _ Hin) as [->|[->|[->|[->| ->]]]];
        destruct (Second_tools_inv _ Hin') as [->|[->|[->|[->| ->]]]];
        done. }
    unfold conditionSet in Hsub. rewrite Hcond' in Hsub.
    apply (not_elem_of_empty (C:=gset string) Second.EXTENSIONS_CONDITION).
    apply Hsub, elem_of_list_to_set, list_elem_of_here.
  - intros active Hactive. apply listAvailable_names.
    exists def. split; [done|]. split; [done|].
    unfold conditionSet. rewrite Hcond.
    intros c Hc. apply elem_of_list_to_set, list_elem_of_singleton in Hc.
    by subst c.
Qed.

(** C1 as stated fails: [open_extension_sidepanel] carries no condition in
    either revision, so it is listed for the empty capability set. *)
Lemma open_extension_sidepanel_not_gated :
  ¬ gatedOn "experimentalExtensionSupport" First.tools
      "open_extension_sidepanel"
  ∧ ¬ gatedOn "experimentalExtensionSupport" Second.tools
      "open_extension_sidepanel".
Proof.
  split; intros [Habsent _]; apply Habsent;
    apply (bool_decide_unpack _); vm_compute; exact I.
Qed.

(** C1, amended: [open_extension_sidepanel] declares no condition in
    either revision and is listed by [listAvailable] for every capability
    set, the empty one included; the tools gated on
    [experimentalExtensionSupport] are the other four of the second
    revision, which are not listed for the empty set and are listed
    whenever the condition is active. *)
Theorem open_extension_sidepanel_always_listed (active : gset string) :
  conditions (annotations First.openExtensionSidepanel) = None
  ∧ conditions (annotations Second.openExtensionSidepanel) = None
  ∧ "open_extension_sidepanel"
      ∈ (summaryName <$> listAvailable First.tools active)
  ∧ "open_extension_sidepanel"
      ∈ (summaryName <$> listAvailable Second.tools active)
  ∧ Forall (gatedOn Second.EXTENSIONS_CONDITION Second.tools)
      ["install_extension"; "uninstall_extension"; "list_extensions";
       "reload_extension"].
Proof.
  split; [done|]. split; [done|]. split; [|split].
  - apply listAvailable_names. exists First.openExtensionSidepanel.
    split; [|split; [done|]].
    + unfold First.tools. set_solver.
    + unfold conditionSet. cbn. set_solver.
  - apply listAvailable_names. exists Second.openExtensionSidepanel.
    split; [|split; [done|]].
    + unfold Second.tools. set_solver.
    + unfold conditionSet. cbn. set_solver.
  - repeat apply Forall_cons_2; [| | | |apply Forall_nil_2].
    + apply (second_revision_gated Second.installExtension); [|done].
      unfold Second.tools. set_solver.
    + apply (second_revision_gated Second.uninstallExtension); [|done].
      unfold Second.tools. set_solver.
    + apply (second_revision_gated Second.listExtensions); [|done].
      unfold Second.tools. set_solver.
    + apply (second_revision_gated Second.reloadExtension); [|done].
      unfold Second.tools. set_solver.
Qed.

(** ** End-to-end runs of the dispatcher *)

Example scenario_install :
  invoke First.tools "install_extension"
    {[ "path" := RawString "/tmp/ext" ]} ∅
    (constantContext (Normal "abc123") None (Throw (ErrorObject "unused"))) []
  = (inr {| responseLines := ["Extension installed. Id: abc123"];
            listExtensions := false; includePages := false;
            handlerError := None |},
     [CallInstallExtension "/tmp/ext"]).
Proof. vm_compute. reflexivity. Qed.

Example scenario_install_gated_out :
  invoke Second.tools "install_extension"
    {[ "path" := RawString "/tmp/ext" ]} ∅
    (constantContext (Normal "abc123") None (Throw (ErrorObject "unused"))) []
  = (inl (NotFoundError "install_extension"), []).
Proof. vm_compute. reflexivity. Qed.

Example scenario_install_capability_active :
  invoke Second.tools "install_extension"
    {[ "path" := RawString "/tmp/ext" ]} {[ Second.EXTENSIONS_CONDITION ]}
    (constantContext (Normal "abc123") None (Throw (ErrorObject "unused"))) []
  = (inr {| responseLines := ["Extension installed. Id: abc123"];
            listExtensions := false; includePages := false;
            handlerError := None |},
     [CallInstallExtension "/tmp/ext"]).
Proof. vm_compute. reflexivity. Qed.

Example scenario_extraneous_key :
  invoke First.tools "list_extensions" {[ "verbose" := RawBoolean true ]} ∅
    (constantContext (Normal "abc123") None (Throw (ErrorObject "unused"))) []
  = (inl (ValidationError [mkIssue "verbose" UnrecognizedKey None]), []).
Proof. vm_compute. reflexivity. Qed.

Example scenario_listing :
  summaryName <$> listAvailable Second.tools ∅ = ["open_extension_sidepanel"]
  ∧ summaryName
      <$> listAvailable Second.tools {[ Second.EXTENSIONS_CONDITION ]}
    = names Second.tools.
Proof. split; vm_compute; reflexivity. Qed.

(** * Further properties of the handlers *)

Lemma allTools_inv (def : ToolDefinition) :
  def ∈ allTools →
  def = First.installExtension ∨ def = First.uninstallExtension
  ∨ def = First.listExtensions ∨ def = First.reloadExtension
  ∨ def = First.openExtensionSidepanel
  ∨ def = Second.installExtension ∨ def = Second.uninstallExtension
  ∨ def = Second.listExtensions ∨ def = Second.reloadExtension
  ∨ def = Second.openExtensionSidepanel.
Proof.
  unfold allTools, First.tools, Second.tools. cbn [app].
  rewrite !elem_of_cons, elem_of_nil. tauto.
Qed.

(** Case analysis over the ten definitions. *)
Ltac each_tool H :=
  destruct (allTools_inv _ H)
    as [->|[->|[->|[->|[->|[->|[->|[->|[->| ->]]]]]]]]].

(** Evaluates the operations of [M] by value, which keeps each
    intermediate world in one copy. *)
Ltac exec_M :=
  cbv [handler name annotations readOnlyHint
       First.installExtension First.uninstallExtension First.listExtensions
       First.reloadExtension First.openExtensionSidepanel
       Second.installExtension Second.uninstallExtension
       Second.listExtensions Second.reloadExtension
       Second.openExtensionSidepanel
       mbind M_bind mret M_ret throw try_catch
       appendResponseLine setListExtensions setIncludePages updateResponse
       Call.installExtension Call.uninstallExtension Call.getExtension
       Call.openExtensionSidepanel contextCall
       calls response textLines listExtensionsFlag includePagesFlag].

(** Runs a handler symbolically from a world given by its components,
    splitting on what the context answers (innermost answer first). *)
Ltac run_handler :=
  try match goal with
      | w : World |- context [handler _ _ _ ?w'] =>
          constr_eq w w';
          destruct w as [log [lines listFlag pagesFlag]]
      end;
  exec_M;
  repeat match goal with
         | |- context [match ?c with _ => _ end] =>
             lazymatch c with
             | context [match _ with _ => _ end] => fail
             | _ =>
                 tryif is_var c then fail
                 else (let E := fresh "Hcontext" in destruct c eqn:E; exec_M)
             end
         end.

(** ** Properties shared by all ten definitions *)

(** X7: a handler that throws has written nothing: whenever the run of a
    definition of either revision ends in an error, the response builder is
    as it was before the run (lines and both flags). *)
Theorem throwing_handler_leaves_builder (def : ToolDefinition)
    (request : Request) (context : Context.t) (w w' : World)
    (error : Thrown) :
  def ∈ allTools →
  handler def request context w = (Throw error, w') →
  response w' = response w.
Proof.
  intros Hdef. each_tool Hdef; run_handler; intros [= _ <-]; done.
Qed.

Lemma throwing_handler_leaves_builder_scenario :
  response
    {| calls := [CallGetExtension "ghost"];
       response := mkResponseBuilder ["kept"] false true |}
  = response
      {| calls := []; response := mkResponseBuilder ["kept"] false true |}.
Proof.
  apply (throwing_handler_leaves_builder First.reloadExtension
           (requestOf [("id", "ghost")])
           (constantContext (Normal "unused") None
              (Throw (ErrorObject "unused")))
           {| calls := [];
              response := mkResponseBuilder ["kept"] false true |}
           {| calls := [CallGetExtension "ghost"];
              response := mkResponseBuilder ["kept"] false true |}
           (ErrorObject "Extension with ID ghost not found.")).
  - do 3 apply list_elem_of_further. apply list_elem_of_here.
  - reflexivity.
Defined.

(** ** [uninstall_extension] *)

(** X1: when [context.uninstallExtension(id)] succeeds, the handler (same
    in both revisions) has made that one call and the response is the line
    [Extension uninstalled. Id: ${id}] built from the requested id. *)
Theorem uninstall_extension_reports_id (context : Context.t)
    (request : Request) (history : list ContextCall) :
  Context.uninstallExtension context history (param "id" request)
    = Normal () →
  runHandler First.uninstallExtension request context history
    = ({| responseLines :=
            ["Extension uninstalled. Id: " +:+ param "id" request];
          listExtensions := false; includePages := false;
          handlerError := None |},
       history ++ [CallUninstallExtension (param "id" request)])
  ∧ runHandler Second.uninstallExtension request context history
    = runHandler First.uninstallExtension request context history.
Proof.
  intros Huninstall. split; [|reflexivity].
  unfold runHandler. exec_M. by rewrite Huninstall.
Qed.

Lemma uninstall_extension_reports_id_scenario :
  runHandler First.uninstallExtension (requestOf [("id", "ext1")])
      (constantContext (Normal "unused") None (Throw (ErrorObject "unused")))
      []
    = ({| responseLines := ["Extension uninstalled. Id: ext1"];
          listExtensions := false; includePages := false;
          handlerError := None |},
       [CallUninstallExtension "ext1"])
  ∧ runHandler Second.uninstallExtension (requestOf [("id", "ext1")])
      (constantContext (Normal "unused") None (Throw (ErrorObject "unused")))
      []
    = runHandler First.uninstallExtension (requestOf [("id", "ext1")])
        (constantContext (Normal "unused") None
           (Throw (ErrorObject "unused"))) [].
Proof.
  exact (uninstall_extension_reports_id
           (constantContext (Normal "unused") None
              (Throw (ErrorObject "unused")))
           (requestOf [("id", "ext1")]) [] eq_refl).
Defined.

(** X2: when [context.uninstallExtension(id)] is rejected, the handler
    lets that very error through: nothing is written, and the line
    [Extension uninstalled.] in particular is not. *)
Theorem uninstall_extension_failure_propagates (context : Context.t)
    (request : Request) (history : list ContextCall) (error : Thrown) :
  Context.uninstallExtension context history (param "id" request)
    = Throw error →
  runHandler First.uninstallExtension request context history
  = ({| responseLines := [];
        listExtensions := false; includePages := false;
        handlerError := Some error |},
     history ++ [CallUninstallExtension (param "id" request)]).
Proof.
  intros Huninstall. unfold runHandler. exec_M. by rewrite Huninstall.
Qed.

Lemma uninstall_extension_failure_propagates_scenario :
  runHandler First.uninstallExtension (requestOf [("id", "ghost")])
    (uninstallFailing (ErrorObject "Unknown extension")) []
  = ({| responseLines := [];
        listExtensions := false; includePages := false;
        handlerError := Some (ErrorObject "Unknown extension") |},
     [CallUninstallExtension "ghost"]).
Proof.
  exact (uninstall_extension_failure_propagates
           (uninstallFailing (ErrorObject "Unknown extension"))
           (requestOf [("id", "ghost")]) []
           (ErrorObject "Unknown extension") eq_refl).
Defined.

(** ** [install_extension] and [reload_extension] on a failing install *)

(** X3: when [context.installExtension(path)] is rejected, the
    [install_extension] handler lets that very error through after its
    single call, with no line written. *)
Theorem install_extension_failure_propagates (context : Context.t)
    (request : Request) (history : list ContextCall) (error : Thrown) :
  Context.installExtension context history (param "path" request)
    = Throw error →
  runHandler First.installExtension request context history
  = ({| responseLines := [];
        listExtensions := false; includePages := false;
        handlerError := Some error |},
     history ++ [CallInstallExtension (param "path" request)]).
Proof.
  intros Hinstall. unfold runHandler. exec_M. by rewrite Hinstall.
Qed.

Lemma install_extension_failure_propagates_scenario :
  runHandler First.installExtension (requestOf [("path", "/nowhere")])
    (constantContext (Throw (ErrorObject "Not an unpacked extension")) None
       (Throw (ErrorObject "unused"))) []
  = ({| responseLines := [];
        listExtensions := false; includePages := false;
        handlerError := Some (ErrorObject "Not an unpacked extension") |},
     [CallInstallExtension "/nowhere"]).
Proof.
  exact (install_extension_failure_propagates
           (constantContext (Throw (ErrorObject "Not an unpacked extension"))
              None (Throw (ErrorObject "unused")))
           (requestOf [("path", "/nowhere")]) []
           (ErrorObject "Not an unpacked extension") eq_refl).
Defined.

(** X4: when [reload_extension] finds the record but the reinstall is
    rejected, the error of [context.installExtension] reaches the caller
    and [Extension reloaded.] is not written; the context was asked for the
    record and then for the install, in that order. *)
Theorem reload_extension_install_failure (context : Context.t)
    (request : Request) (history : list ContextCall)
    (extension : Extension.t) (error : Thrown) :
  Context.getExtension context history (param "id" request)
    = Some extension →
  Context.installExtension context
    (history ++ [CallGetExtension (param "id" request)])
    (Extension.path extension) = Throw error →
  runHandler First.reloadExtension request context history
  = ({| responseLines := [];
        listExtensions := false; includePages := false;
        handlerError := Some error |},
     history ++ [CallGetExtension (param "id" request);
                 CallInstallExtension (Extension.path extension)]).
Proof.
  intros Hget Hinstall.
  rewrite (reload_extension_found_run _ _ _ _ Hget). by rewrite Hinstall.
Qed.

Lemma reload_extension_install_failure_scenario :
  runHandler First.reloadExtension (requestOf [("id", "ext1")])
    (constantContext (Throw (ErrorObject "Folder is gone"))
       (Some (Extension.Build "ext1" "Demo" "1.0" "/home/me/demo"))
       (Throw (ErrorObject "unused"))) []
  = ({| responseLines := [];
        listExtensions := false; includePages := false;
        handlerError := Some (ErrorObject "Folder is gone") |},
     [CallGetExtension "ext1"; CallInstallExtension "/home/me/demo"]).
Proof.
  exact (reload_extension_install_failure
           (constantContext (Throw (ErrorObject "Folder is gone"))
              (Some (Extension.Build "ext1" "Demo" "1.0" "/home/me/demo"))
              (Throw (ErrorObject "unused")))
           (requestOf [("id", "ext1")]) []
           (Extension.Build "ext1" "Demo" "1.0" "/home/me/demo")
           (ErrorObject "Folder is gone") eq_refl eq_refl).
Defined.

(** ** The DEBUGGING-category [open_extension_sidepanel] *)

Lemma second_sidepanel_success_run (context : Context.t) (request : Request)
    (history : list ContextCall) (result : SidepanelResult.t) :
  Context.openExtensionSidepanel context history
    (param "extensionId" request) = Normal result →
  runHandler Second.openExtensionSidepanel request context history
  = ({| responseLines := successLines result;
        listExtensions := false; includePages := true;
        handlerError := None |},
     history ++ [CallOpenExtensionSidepanel (param "extensionId" request)]).
Proof.
  intros Hopen. unfold runHandler. exec_M. by rewrite Hopen.
Qed.



(** X6: whatever the context does, the second definition never lets an
    error out: its run always ends normally with a response that is not
    empty, and the include-pages flag tells the two outcomes apart: it is
    set exactly when the context call succeeded. *)
Theorem second_sidepanel_never_throws (context : Context.t)
    (request : Request) (history : list ContextCall) :
  let r :=
    (runHandler Second.openExtensionSidepanel request context history).1 in
  handlerError r = None
  ∧ responseLines r ≠ []
  ∧ (includePages r = true
     ↔ ∃ result,
         Context.openExtensionSidepanel context history
           (param "extensionId" request) = Normal result).
Proof.
  intros r. subst r.
  destruct (Context.openExtensionSidepanel context history
              (param "extensionId" request)) as [result|error] eqn:Hopen.
  - rewrite (second_sidepanel_success_run _ _ _ _ Hopen). cbn.
    split; [done|]. split; [done|]. split; [by eexists | done].
  - rewrite (second_sidepanel_failure_run _ _ _ _ Hopen). cbn.
    split; [done|]. split; [done|]. split; [done | by intros [? ?]].
Qed.

(** ** More properties shared by all ten definitions *)

Lemma log_grows (log added : list ContextCall) :
  added ≠ [] → log ++ added ≠ log.
Proof.
  intros Hadded Heq. apply Hadded.
  apply (app_inv_head log). by rewrite app_nil_r.
Qed.

(** X8: a run only appends: the call log and the text lines after the run
    of any definition extend those before it, and at most two calls are
    made on the context. *)
Theorem handler_appends_only (def : ToolDefinition) (request : Request)
    (context : Context.t) (w w' : World) (completion : Completion unit) :
  def ∈ allTools →
  handler def request context w = (completion, w') →
  ∃ (added : list ContextCall) (lines : list string),
    calls w' = calls w ++ added
    ∧ (length added ≤ 2)%nat
    ∧ textLines (response w') = textLines (response w) ++ lines.
Proof.
  intros Hdef.
  each_tool Hdef; run_handler; intros [= <- <-]; exec_M;
    rewrite <- ?app_assoc; eexists _, _;
    (split; [first [reflexivity | exact (eq_sym (app_nil_r _))]|]);
    (split; [cbn; lia|]);
    first [reflexivity | exact (eq_sym (app_nil_r _))].
Qed.

Lemma handler_appends_only_scenario :
  ∃ (added : list ContextCall) (lines : list string),
    [CallGetExtension "ext1"; CallInstallExtension "/home/me/demo"]
      = [] ++ added
    ∧ (length added ≤ 2)%nat
    ∧ ["kept"; "Extension reloaded."] = ["kept"] ++ lines.
Proof.
  apply (handler_appends_only First.reloadExtension
           (requestOf [("id", "ext1")])
           (constantContext (Normal "ext1")
              (Some (Extension.Build "ext1" "Demo" "1.0" "/home/me/demo"))
              (Throw (ErrorObject "unused")))
           {| calls := [];
              response := mkResponseBuilder ["kept"] false false |}
           {| calls := [CallGetExtension "ext1";
                        CallInstallExtension "/home/me/demo"];
              response :=
                mkResponseBuilder ["kept"; "Extension reloaded."]
                  false false |}
           (Normal ())).
  - do 3 apply list_elem_of_further. apply list_elem_of_here.
  - reflexivity.
Defined.

(** X9: only [uninstall_extension] uninstalls: after the run of any other
    definition ([reload_extension] included, which reinstalls in place),
    every [uninstallExtension] call in the log was there before the run. *)
Theorem only_uninstall_extension_uninstalls (def : ToolDefinition)
    (request : Request) (context : Context.t) (w w' : World)
    (completion : Completion unit) (id : string) :
  def ∈ allTools →
  name def ≠ "uninstall_extension" →
  handler def request context w = (completion, w') →
  CallUninstallExtension id ∈ calls w' →
  CallUninstallExtension id ∈ calls w.
Proof.
  intros Hdef.
  each_tool Hdef; run_handler; intros Hname; try done;
    intros [= <- <-]; exec_M;
    rewrite ?elem_of_app, ?elem_of_cons, ?elem_of_nil;
    intuition discriminate.
Qed.

Lemma only_uninstall_extension_uninstalls_scenario :
  CallUninstallExtension "ext1" ∈ [CallUninstallExtension "ext1"].
Proof.
  apply (only_uninstall_extension_uninstalls First.reloadExtension
           (requestOf [("id", "ext1")])
           (constantContext (Normal "ext1")
              (Some (Extension.Build "ext1" "Demo" "1.0" "/home/me/demo"))
              (Throw (ErrorObject "unused")))
           {| calls := [CallUninstallExtension "ext1"];
              response := freshBuilder |}
           {| calls := [CallUninstallExtension "ext1";
                        CallGetExtension "ext1";
                        CallInstallExtension "/home/me/demo"];
              response :=
                mkResponseBuilder ["Extension reloaded."] false false |}
           (Normal ()) "ext1").
  - do 3 apply list_elem_of_further. apply list_elem_of_here.
  - discriminate.
  - reflexivity.
  - apply list_elem_of_here.
Defined.

(** X10: the [readOnlyHint] annotation is truthful: a definition is
    marked read-only exactly when its handler makes no call on the
    context. *)
Theorem readOnlyHint_matches_handler (def : ToolDefinition)
    (request : Request) (context : Context.t) (w w' : World)
    (completion : Completion unit) :
  def ∈ allTools →
  handler def request context w = (completion, w') →
  readOnlyHint (annotations def) = true ↔ calls w' = calls w.
Proof.
  intros Hdef.
  each_tool Hdef; run_handler; intros [= <- <-]; exec_M;
    rewrite <- ?app_assoc;
    (split; [done|]); intros Hlog;
    try done; by apply log_grows in Hlog.
Qed.

Lemma readOnlyHint_matches_handler_scenario :
  readOnlyHint (annotations Second.listExtensions) = true
  ↔ [CallInstallExtension "/tmp/ext"] = [CallInstallExtension "/tmp/ext"].
Proof.
  apply (readOnlyHint_matches_handler Second.listExtensions
           (requestOf [])
           (constantContext (Normal "unused") None
              (Throw (ErrorObject "unused")))
           {| calls := [CallInstallExtension "/tmp/ext"];
              response := freshBuilder |}
           {| calls := [CallInstallExtension "/tmp/ext"];
              response := mkResponseBuilder [] true false |}
           (Normal ())).
  - do 7 apply list_elem_of_further. apply list_elem_of_here.
  - reflexivity.
Defined.

(** X11: the rendering flags have one writer each: the list-extensions
    flag is left as it was by every definition but [list_extensions], and
    the include-pages flag by every definition but
    [open_extension_sidepanel]. *)
Theorem flags_have_one_writer (def : ToolDefinition) (request : Request)
    (context : Context.t) (w w' : World) (completion : Completion unit) :
  def ∈ allTools →
  handler def request context w = (completion, w') →
  (name def ≠ "list_extensions" →
   listExtensionsFlag (response w') = listExtensionsFlag (response w))
  ∧ (name def ≠ "open_extension_sidepanel" →
     includePagesFlag (response w') = includePagesFlag (response w)).
Proof.
  intros Hdef.
  each_tool Hdef; run_handler; intros [= <- <-]; exec_M;
    split; intros Hname; done.
Qed.

Lemma flags_have_one_writer_scenario :
  listExtensionsFlag (mkResponseBuilder ["Extension installed. Id: abc123"]
                        true true)
    = listExtensionsFlag (mkResponseBuilder [] true true)
  ∧ includePagesFlag (mkResponseBuilder ["Extension installed. Id: abc123"]
                        true true)
    = includePagesFlag (mkResponseBuilder [] true true).
Proof.
  pose proof (flags_have_one_writer Second.installExtension
                (requestOf [("path", "/tmp/ext")])
                (constantContext (Normal "abc123") None
                   (Throw (ErrorObject "unused")))
                {| calls := []; response := mkResponseBuilder [] true true |}
                {| calls := [CallInstallExtension "/tmp/ext"];
                   response :=
                     mkResponseBuilder ["Extension installed. Id: abc123"]
                       true true |}
                (Normal ())) as Hflags.
  destruct Hflags as [HlistFlag HpagesFlag].
  - do 5 apply list_elem_of_further. apply list_elem_of_here.
  - reflexivity.
  - split; [apply HlistFlag | apply HpagesFlag]; discriminate.
Defined.

(** ** Handlers and their schemas *)

(** X12: a handler reads no parameter that its schema does not declare:
    two requests that agree on the keys of the definition's schema give
    the same run. *)
Theorem handler_reads_declared_keys (def : ToolDefinition)
    (request1 request2 : Request) (context : Context.t) (w : World) :
  def ∈ allTools →
  (∀ key, key ∈ (schema def).*1 → param key request1 = param key request2) →
  handler def request1 context w = handler def request2 context w.
Proof.
  intros Hdef Hkeys.
  each_tool Hdef;
    cbv [handler First.installExtension First.uninstallExtension
         First.listExtensions First.reloadExtension
         First.openExtensionSidepanel Second.installExtension
         Second.uninstallExtension Second.listExtensions
         Second.reloadExtension Second.openExtensionSidepanel];
    repeat match goal with
           | |- context [param ?key request1] =>
               rewrite (Hkeys key) by (cbn; apply list_elem_of_here)
           end;
    reflexivity.
Qed.

Lemma handler_reads_declared_keys_scenario :
  handler Second.openExtensionSidepanel
    (requestOf [("extensionId", "ext1"); ("id", "other")])
    (constantContext (Normal "unused") None
       (Throw (ErrorObject "No service worker found")))
    {| calls := []; response := freshBuilder |}
  = handler Second.openExtensionSidepanel
      (requestOf [("extensionId", "ext1")])
      (constantContext (Normal "unused") None
         (Throw (ErrorObject "No service worker found")))
      {| calls := []; response := freshBuilder |}.
Proof.
  apply (handler_reads_declared_keys Second.openExtensionSidepanel
           (requestOf [("extensionId", "ext1"); ("id", "other")])
           (requestOf [("extensionId", "ext1")])).
  - do 9 apply list_elem_of_further. apply list_elem_of_here.
  - intros key Hkey. apply list_elem_of_singleton in Hkey. rewrite Hkey.
    reflexivity.
Defined.

(** ** The two revisions side by side *)


Lemma conditionsMet_gated (active : gset string) (def : ToolDefinition) :
  Second.EXTENSIONS_CONDITION ∈ active →
  conditions (annotations def) = Some [Second.EXTENSIONS_CONDITION] →
  conditionsMet active def = true.
Proof.
  intros Hactive Hcond. apply conditionsMet_subseteq.
  unfold conditionSet. rewrite Hcond. intros c Hc.
  apply elem_of_list_to_set, list_elem_of_singleton in Hc. by subst c.
Qed.

Lemma conditionsMet_ungated (active : gset string) (def : ToolDefinition) :
  conditions (annotations def) = None → conditionsMet active def = true.
Proof.
  intros Hcond. apply conditionsMet_subseteq.
  unfold conditionSet. rewrite Hcond. intros c Hc.
  by apply elem_of_list_to_set, elem_of_nil in Hc.
Qed.



Lemma conditionsMet_blocked (active : gset string) (def : ToolDefinition) :
  Second.EXTENSIONS_CONDITION ∉ active →
  conditions (annotations def) = Some [Second.EXTENSIONS_CONDITION] →
  conditionsMet active def = false.
Proof.
  intros Hinactive Hcond.
  destruct (conditionsMet active def) eqn:Hmet; [|done].
  apply conditionsMet_subseteq in Hmet. unfold conditionSet in Hmet.
  rewrite Hcond in Hmet. exfalso. apply Hinactive, Hmet.
  apply elem_of_list_to_set, list_elem_of_here.
Qed.

(** X14: what each revision exposes, for every capability set: the first
    revision always lists its five tools; the second lists all five, in
    source order, when [experimentalExtensionSupport] is active, and
    [open_extension_sidepanel] alone when it is not. *)
Theorem exposed_tools_by_capability (active : gset string) :
  summaryName <$> listAvailable First.tools active = names First.tools
  ∧ summaryName <$> listAvailable Second.tools active
    = if bool_decide (Second.EXTENSIONS_CONDITION ∈ active)
      then names Second.tools
      else ["open_extension_sidepanel"].
Proof.
  unfold listAvailable, First.tools, Second.tools, Registry. split.
  - rewrite !filter_cons, filter_nil.
    by rewrite !decide_True by by apply conditionsMet_ungated.
  - rewrite !filter_cons, filter_nil.
    rewrite (decide_True (P := conditionsMet active
                                 Second.openExtensionSidepanel = true))
      by by apply conditionsMet_ungated.
    case_bool_decide as Hactive.
    + by rewrite !decide_True by by apply conditionsMet_gated.
    + rewrite !decide_False; [done|..];
        by rewrite conditionsMet_blocked.
Qed.
